(** * MealViewer API client: request builder, response mapper, error classifier

    A shallow embedding of [MealViewerClient] (constructor, [getMenu],
    [formatDate], [parseResponse], [handleError], [log]) and of the data model of
    [types.ts], with the properties of the specification proved over it.

    Conventions of the embedding.
    - A JavaScript string is a [string]; each character stands for one code
      unit in the range 0..255 (Latin-1).  Code units above 255 are outside
      the model.
    - A JavaScript number is an integer or [NaN] ([JsNumber]); fractions and
      infinities are outside the model.
    - A [Date] object is seen through [getFullYear], [getMonth] and
      [getDate] only, that is through its calendar fields in local time.
    - [throw] is a result in [Outcome]: a [MealViewerError], or a
      [TypeError] of the platform that nothing catches.  The one network
      call of [getMenu] is the section variable [axios_get], and [getMenu]
      returns the list of URLs it requested together with its outcome.
    - A payload is either of the shape [RawMealViewerResponse] or one on
      which [parseResponse] throws a [TypeError]; a payload that departs
      from the shape without making [parseResponse] throw is outside the
      model.
    - The console is a list of lines; the traced variants of the methods
      return the lines they write beside their result. *)

From Stdlib Require Import ZArith QArith List Bool Lia.
From Stdlib Require Import Strings.String Strings.Ascii.
From Stdlib Require Import Numbers.DecimalString Numbers.DecimalZ.
Import ListNotations.

Open Scope string_scope.
Open Scope Z_scope.

(** ** JavaScript primitives used by the client *)

Module Js.

(** Numbers: integers and [NaN]. *)
Inductive JsNumber : Type :=
| Num (z : Z)
| NaN.

(** [x + 1] on numbers. *)
Definition succ (x : JsNumber) : JsNumber :=
  match x with
  | Num z => Num (z + 1)
  | NaN => NaN
  end.

(** [String(x)] on numbers. *)
Definition String_of_number (x : JsNumber) : string :=
  match x with
  | Num z => NilEmpty.string_of_int (Z.to_int z)
  | NaN => "NaN"
  end.

(** Truthiness of a number: [0] and [NaN] are falsy. *)
Definition truthy_number (x : JsNumber) : bool :=
  match x with
  | Num z => negb (Z.eqb z 0)
  | NaN => false
  end.

(** Truthiness of a string: only the empty string is falsy. *)
Definition truthy_string (s : string) : bool :=
  match s with
  | EmptyString => false
  | String _ _ => true
  end.

(** [fill.repeat(n)] for a one-character [fill]. *)
Fixpoint repeat_char (c : ascii) (n : nat) : string :=
  match n with
  | O => EmptyString
  | S n' => String c (repeat_char c n')
  end.

(** [s.padStart(n, c)] for a one-character filler. *)
Definition padStart (n : nat) (c : ascii) (s : string) : string :=
  repeat_char c (n - String.length s) ++ s.

(** [s.split(sep)] for a one-character separator.  The result is never
    empty: the empty string splits into one empty component. *)
Fixpoint split (sep : ascii) (s : string) : list string :=
  match s with
  | EmptyString => [EmptyString]
  | String c s' =>
      if Ascii.eqb c sep then EmptyString :: split sep s'
      else match split sep s' with
           | [] => [String c EmptyString]
           | p :: ps => String c p :: ps
           end
  end.

(** [c.toLowerCase()] on one Latin-1 code unit: A..Z, and the accented
    capitals U+00C0..U+00DE other than the multiplication sign U+00D7,
    move up by 32. *)
Definition lower_char (c : ascii) : ascii :=
  let n := N_of_ascii c in
  if ((65 <=? n) && (n <=? 90))%N then ascii_of_N (n + 32)
  else if ((192 <=? n) && (n <=? 222) && negb (n =? 215))%N
       then ascii_of_N (n + 32)
  else c.

(** [s.toLowerCase()]. *)
Fixpoint toLowerCase (s : string) : string :=
  match s with
  | EmptyString => EmptyString
  | String c s' => String (lower_char c) (toLowerCase s')
  end.

(** [s.startsWith(t)]. *)
Fixpoint startsWith (s t : string) {struct t} : bool :=
  match t, s with
  | EmptyString, _ => true
  | String _ _, EmptyString => false
  | String b t', String a s' => Ascii.eqb a b && startsWith s' t'
  end.

(** [s.includes(t)]: [t] occurs in [s] at some offset. *)
Fixpoint includes (s t : string) : bool :=
  startsWith s t ||
  match s with
  | EmptyString => false
  | String _ s' => includes s' t
  end.

(** The part of a [Date] object the client reads. *)
Inductive JsDate : Type :=
| ValidDate (fullYear month date : Z)   (* month is 0-indexed *)
| InvalidDate.

Definition getFullYear (d : JsDate) : JsNumber :=
  match d with ValidDate y _ _ => Num y | InvalidDate => NaN end.
Definition getMonth (d : JsDate) : JsNumber :=
  match d with ValidDate _ m _ => Num m | InvalidDate => NaN end.
Definition getDate (d : JsDate) : JsNumber :=
  match d with ValidDate _ _ dd => Num dd | InvalidDate => NaN end.

End Js.
Import Js.

(** ** types.ts *)

Inductive ErrorCode : Type :=
| SCHOOL_NOT_FOUND
| API_ERROR
| INVALID_DATE
| NETWORK_ERROR.

(** [class MealViewerError extends Error]. *)
Record MealViewerError : Type := mkError {
  message : string;
  code : ErrorCode
}.

(** The result of a call: it returns, it throws a [MealViewerError], or
    a [TypeError] of the platform leaves it. *)
Inductive Outcome (A : Type) : Type :=
| Return (a : A)
| Throw (e : MealViewerError)
| ThrowTypeError.
Arguments Return {A} a.
Arguments Throw {A} e.
Arguments ThrowTypeError {A}.

(** [Date | string]. *)
Inductive DateArg : Type :=
| DStr (s : string)
| DObj (d : JsDate).

Record GetMenuRequest : Type := mkRequest {
  schoolName : string;
  startDate : DateArg;
  endDate : option DateArg
}.

(** ** formatDate *)

Definition formatDate (date : DateArg) : Outcome string :=
  match date with
  | DStr s =>
      match split "-" s with
      | [year; month; day] => Return (month ++ "-" ++ day ++ "-" ++ year)
      | _ =>
          Throw (mkError ("Invalid date format: " ++ s ++ ". Expected YYYY-MM-DD")
                         INVALID_DATE)
      end
  | DObj d =>
      let month := padStart 2 "0" (String_of_number (succ (getMonth d))) in
      let day := padStart 2 "0" (String_of_number (getDate d)) in
      let year := String_of_number (getFullYear d) in
      Return (month ++ "-" ++ day ++ "-" ++ year)
  end.

(** ** The raw payload ([RawMealViewerResponse])

    The [nutritionals] and [allergens] members of a raw food item are typed
    [any] and are never read by the client; they are left out.  Latitude
    and longitude are only copied, so a rational stands for them. *)

(** The [{ data: [...] }] wrapper of the two inner lists. *)
Record DataList (A : Type) : Type := mkData { data : list A }.
Arguments mkData {A} data.
Arguments data {A} d.

Module RawFoodItem.
Record t : Type := mk {
  item_Name : string;
  item_AltName : option string;
  description : option string;
  item_Type : string;
  serving_Size : string
}.
End RawFoodItem.

Module RawLine.
Record t : Type := mk {
  name : string;
  foodItemList : DataList RawFoodItem.t
}.
End RawLine.

Module RawBlock.
Record t : Type := mk {
  blockName : string;
  cafeteriaLineList : DataList RawLine.t
}.
End RawBlock.

Module RawSchedule.
Record t : Type := mk {
  dateFull : string;                 (* dateInformation.dateFull *)
  menuBlocks : list RawBlock.t
}.
End RawSchedule.

Module School.
(** [MealViewerSchool]; [physicalLocation] has the same shape. *)
Record t : Type := mk {
  name : string;
  address : string;
  city : string;
  state : option string;
  latitude : option Q;
  longitude : option Q
}.
End School.

Module RawResponse.
Record t : Type := mk {
  physicalLocation : School.t;
  menuSchedules : list RawSchedule.t
}.
End RawResponse.

(** ** The menu model *)

Module MenuItem.
(** [nutrition] and [allergens] are optional members that
    [parseResponse] never sets. *)
Record t : Type := mk {
  name : string;
  altName : option string;
  description : option string;
  type : string;
  servingSize : string
}.
End MenuItem.

Module CafeteriaLine.
Record t : Type := mk {
  name : string;
  items : list MenuItem.t
}.
End CafeteriaLine.

Inductive MealPeriod : Type := Breakfast | Lunch | Dinner | Snack.

Module MenuBlock.
Record t : Type := mk {
  mealPeriod : MealPeriod;
  cafeteriaLines : list CafeteriaLine.t
}.
End MenuBlock.

Module DailyMenu.
Record t : Type := mk {
  date : JsDate;
  school : School.t;
  meals : list MenuBlock.t
}.
End DailyMenu.

Module GetMenuResponse.
Record t : Type := mk {
  menus : list DailyMenu.t;
  school : School.t
}.
End GetMenuResponse.

(** ** parseResponse *)

(** [x || undefined] on an optional string: the empty string and
    [undefined] both give [undefined]. *)
Definition or_undefined (x : option string) : option string :=
  match x with
  | Some s => if truthy_string s then Some s else None
  | None => None
  end.

(** The meal period of a block, from its name (the [if]/[else if] chain). *)
Definition mealPeriodOf (rawName : string) : MealPeriod :=
  let blockName := toLowerCase rawName in
  if includes blockName "breakfast" then Breakfast
  else if includes blockName "lunch" then Lunch
  else if includes blockName "dinner" then Dinner
  else if includes blockName "snack" then Snack
  else Lunch.

Definition parseItem (item : RawFoodItem.t) : MenuItem.t :=
  {| MenuItem.name := RawFoodItem.item_Name item;
     MenuItem.altName := or_undefined (RawFoodItem.item_AltName item);
     MenuItem.description := or_undefined (RawFoodItem.description item);
     MenuItem.type := RawFoodItem.item_Type item;
     MenuItem.servingSize := RawFoodItem.serving_Size item |}.

Definition parseLine (line : RawLine.t) : CafeteriaLine.t :=
  {| CafeteriaLine.name := RawLine.name line;
     CafeteriaLine.items := map parseItem (data (RawLine.foodItemList line)) |}.

Definition parseBlock (block : RawBlock.t) : MenuBlock.t :=
  {| MenuBlock.mealPeriod := mealPeriodOf (RawBlock.blockName block);
     MenuBlock.cafeteriaLines :=
       map parseLine (data (RawBlock.cafeteriaLineList block)) |}.

Section Parse.

(** [new Date(s)], the platform's date parser. *)
Variable newDate : string -> JsDate.

Definition parseSchedule (school : School.t) (schedule : RawSchedule.t)
  : DailyMenu.t :=
  {| DailyMenu.date := newDate (RawSchedule.dateFull schedule);
     DailyMenu.school := school;
     DailyMenu.meals := map parseBlock (RawSchedule.menuBlocks schedule) |}.

Definition parseResponse (d : RawResponse.t) : GetMenuResponse.t :=
  let loc := RawResponse.physicalLocation d in
  let school :=
    {| School.name := School.name loc;
       School.address := School.address loc;
       School.city := School.city loc;
       School.state := School.state loc;
       School.latitude := School.latitude loc;
       School.longitude := School.longitude loc |} in
  {| GetMenuResponse.menus :=
       map (parseSchedule school) (RawResponse.menuSchedules d);
     GetMenuResponse.school := school |}.

End Parse.

(** ** handleError *)

Module AxiosError.
(** What [handleError] reads of an axios error: [response?.status],
    [code] and [message]. *)
Record t : Type := mk {
  response : option Z;      (* the HTTP status of the response, if any *)
  code : option string;
  message : string
}.
End AxiosError.

(** A caught value, of type [unknown] in the source, by the tests
    [handleError] applies to it.  A value that is neither an axios error
    nor an [Error] is seen through [String(error)], which gives a string
    or throws a [TypeError] (an object without [toString], such as
    [Object.create(null)]). *)
Inductive Thrown : Type :=
| ThrownAxios (e : AxiosError.t)       (* axios.isAxiosError(error) *)
| ThrownError (msg : string)           (* error instanceof Error; msg is error.message *)
| ThrownValue (str : option string).   (* anything else; str is String(error), None when it throws *)

Definition is_status (n : Z) (r : option Z) : bool :=
  match r with
  | Some s => Z.eqb s n
  | None => false
  end.

Definition is_code (c : string) (x : option string) : bool :=
  match x with
  | Some s => String.eqb s c
  | None => false
  end.

(** [String(x)] inside a template, for an optional string. *)
Definition String_of_opt (x : option string) : string :=
  match x with
  | Some s => s
  | None => "undefined"
  end.

(** The return type [never]. *)
Definition never : Type := Empty_set.

(** [handleError] never returns: it throws the error it builds, unless
    building the message throws first. *)
Definition handleError (error : Thrown) : Outcome never :=
  match error with
  | ThrownAxios axiosError =>
      if is_status 404 (AxiosError.response axiosError) then
        Throw (mkError "School not found. Please check the school name and try again."
                       SCHOOL_NOT_FOUND)
      else if is_code "ECONNREFUSED" (AxiosError.code axiosError)
              || is_code "ETIMEDOUT" (AxiosError.code axiosError) then
        Throw (mkError ("Network error: " ++ String_of_opt (AxiosError.code axiosError)
                          ++ ". Please check your internet connection.")
                       NETWORK_ERROR)
      else
        Throw (mkError ("API request failed: " ++ AxiosError.message axiosError)
                       API_ERROR)
  | ThrownError msg => Throw (mkError ("Unexpected error: " ++ msg) API_ERROR)
  | ThrownValue (Some str) =>
      Throw (mkError ("Unexpected error: " ++ str) API_ERROR)
  | ThrownValue None => ThrowTypeError
  end.

(** [return this.handleError(error)]: what [handleError] throws leaves
    the caller. *)
Definition rethrow {A : Type} (thrown : Outcome never) : Outcome A :=
  match thrown with
  | Return x => match x with end
  | Throw e => Throw e
  | ThrowTypeError => ThrowTypeError
  end.

(** ** getMenu *)

Definition bind {A B : Type} (m : Outcome A) (k : A -> Outcome B) : Outcome B :=
  match m with
  | Return a => k a
  | Throw e => Throw e
  | ThrowTypeError => ThrowTypeError
  end.

Notation "x <- m ;; k" := (bind m (fun x => k))
  (at level 61, m at next level, right associativity).

(** Truthiness of a [Date | string]: an object is always truthy. *)
Definition truthy_date (d : DateArg) : bool :=
  match d with
  | DStr s => truthy_string s
  | DObj _ => true
  end.

(** The two date segments of the URL: the constants [startDate] and
    [endDate] of [getMenu]. *)
Definition dateSegments (request : GetMenuRequest) : Outcome (string * string) :=
  start <- formatDate (startDate request) ;;
  match endDate request with
  | Some d =>
      if truthy_date d then (e <- formatDate d ;; Return (start, e))
      else Return (start, start)
  | None => Return (start, start)
  end.

Definition urlOf (school : string) (segments : string * string) : string :=
  "/school/" ++ school ++ "/" ++ fst segments ++ "/" ++ snd segments ++ "/".

(** The constant [url] of [getMenu]. *)
Definition buildUrl (request : GetMenuRequest) : Outcome string :=
  segments <- dateSegments request ;;
  Return (urlOf (schoolName request) segments).

(** What [this.axios.get(url)] settles to.  The type argument of
    [get] is not checked when the program runs: the payload of a resolved
    request has the shape [RawMealViewerResponse] ([Resolved]), or it is
    one on which [parseResponse] throws a [TypeError], of which
    [ResolvedMalformed] holds the message. *)
Inductive AxiosResult : Type :=
| Resolved (response_data : RawResponse.t)
| ResolvedMalformed (typeError_message : string)
| Rejected (error : Thrown).

(** One run of [getMenu]: the URLs requested, in order, and the outcome. *)
Record Run : Type := mkRun {
  requested : list string;
  outcome : Outcome GetMenuResponse.t
}.

Section Client.

Variable newDate : string -> JsDate.
Variable axios_get : string -> AxiosResult.

(** The [try] block of [getMenu]: the request and then [parseResponse].
    It gives the result, or the value the [catch] clause receives. *)
Definition tryFetch (url : string) : Thrown + GetMenuResponse.t :=
  match axios_get url with
  | Resolved response_data => inr (parseResponse newDate response_data)
  | ResolvedMalformed typeError_message => inl (ThrownError typeError_message)
  | Rejected error => inl error
  end.

Definition getMenu (request : GetMenuRequest) : Run :=
  match buildUrl request with
  | Throw e => mkRun [] (Throw e)
  | ThrowTypeError => mkRun [] ThrowTypeError
  | Return url =>
      match tryFetch url with
      | inr result => mkRun [url] (Return result)
      | inl error => mkRun [url] (rethrow (handleError error))
      end
  end.

End Client.

(** ** constructor *)

Module Config.
(** [MealViewerClientConfig]: every member is optional. *)
Record t : Type := mk {
  baseURL : option string;
  timeout : option JsNumber;
  userAgent : option string;
  debug : option bool
}.
(** [{}]. *)
Definition empty : t := mk None None None None.
End Config.

Module AxiosConfig.
(** The argument of [axios.create]. *)
Record t : Type := mk {
  baseURL : string;
  timeout : JsNumber;
  userAgent : string          (* headers['User-Agent'] *)
}.
End AxiosConfig.

Record MealViewerClient : Type := mkClient {
  axios : AxiosConfig.t;
  debug : bool
}.

(** [x || dflt] on an optional string. *)
Definition string_or (x : option string) (dflt : string) : string :=
  match x with
  | Some s => if truthy_string s then s else dflt
  | None => dflt
  end.

(** [x || dflt] on an optional number. *)
Definition number_or (x : option JsNumber) (dflt : JsNumber) : JsNumber :=
  match x with
  | Some n => if truthy_number n then n else dflt
  | None => dflt
  end.

(** [x || false] on an optional boolean. *)
Definition bool_or_false (x : option bool) : bool :=
  match x with
  | Some b => b
  | None => false
  end.

Definition default_baseURL : string := "https://api.mealviewer.com/api/v4".
Definition default_timeout : JsNumber := Num 30000.
Definition default_userAgent : string :=
  "BrandCast/FamilyCast MealViewer Integration".

(** [new MealViewerClient(config)]; [None] is a call without argument,
    for which the parameter defaults to [{}]. *)
Definition constructor (arg : option Config.t) : MealViewerClient :=
  let config := match arg with Some c => c | None => Config.empty end in
  {| debug := bool_or_false (Config.debug config);
     axios :=
       {| AxiosConfig.baseURL := string_or (Config.baseURL config) default_baseURL;
          AxiosConfig.timeout := number_or (Config.timeout config) default_timeout;
          AxiosConfig.userAgent :=
            string_or (Config.userAgent config) default_userAgent |} |}.

(** ** log and the console

    [this.log(...args)] writes one line to the console when [this.debug]
    is set.  The console is a list of lines, a line the list of the
    arguments given to [console.log]. *)

Inductive LogArg : Type :=
| LogStr (s : string)
| LogUndefined
| LogValue (error : Thrown).

Definition LogLine : Type := list LogArg.

(** An optional string given to [console.log] as it is. *)
Definition log_opt (x : option string) : LogArg :=
  match x with
  | Some s => LogStr s
  | None => LogUndefined
  end.

Definition log (this : MealViewerClient) (args : list LogArg) : list LogLine :=
  if debug this then [LogStr "[MealViewerClient]" :: args] else [].

(** [handleError] with the lines it writes.  The line is written before
    the message is built. *)
Definition handleErrorTraced (this : MealViewerClient) (error : Thrown)
  : list LogLine * Outcome never :=
  match error with
  | ThrownAxios axiosError =>
      if is_status 404 (AxiosError.response axiosError) then
        (log this [LogStr "School not found (404)"],
         Throw (mkError "School not found. Please check the school name and try again."
                        SCHOOL_NOT_FOUND))
      else if is_code "ECONNREFUSED" (AxiosError.code axiosError)
              || is_code "ETIMEDOUT" (AxiosError.code axiosError) then
        (log this [LogStr "Network error:"; log_opt (AxiosError.code axiosError)],
         Throw (mkError ("Network error: " ++ String_of_opt (AxiosError.code axiosError)
                           ++ ". Please check your internet connection.")
                        NETWORK_ERROR))
      else
        (log this [LogStr "API error:"; LogStr (AxiosError.message axiosError)],
         Throw (mkError ("API request failed: " ++ AxiosError.message axiosError)
                        API_ERROR))
  | ThrownError msg =>
      (log this [LogStr "Unknown error:"; LogValue error],
       Throw (mkError ("Unexpected error: " ++ msg) API_ERROR))
  | ThrownValue (Some str) =>
      (log this [LogStr "Unknown error:"; LogValue error],
       Throw (mkError ("Unexpected error: " ++ str) API_ERROR))
  | ThrownValue None =>
      (log this [LogStr "Unknown error:"; LogValue error], ThrowTypeError)
  end.

Section TracedClient.

Variable newDate : string -> JsDate.
Variable axios_get : string -> AxiosResult.

(** [getMenu] with the lines it writes: nothing before the dates are
    formatted, then the URL, then the success line once the request has
    resolved, and the line of [handleError] when the request or
    [parseResponse] has failed. *)
Definition getMenuTraced (this : MealViewerClient) (request : GetMenuRequest)
  : list LogLine * Run :=
  match buildUrl request with
  | Throw e => ([], mkRun [] (Throw e))
  | ThrowTypeError => ([], mkRun [] ThrowTypeError)
  | Return url =>
      let fetching := log this [LogStr ("Fetching menu: GET " ++ url)] in
      let fetched := log this [LogStr "Menu fetched successfully"] in
      match axios_get url with
      | Resolved response_data =>
          (app fetching fetched,
           mkRun [url] (Return (parseResponse newDate response_data)))
      | ResolvedMalformed typeError_message =>
          let (lines, thrown) :=
            handleErrorTraced this (ThrownError typeError_message) in
          (app fetching (app fetched lines), mkRun [url] (rethrow thrown))
      | Rejected error =>
          let (lines, thrown) := handleErrorTraced this error in
          (app fetching lines, mkRun [url] (rethrow thrown))
      end
  end.

End TracedClient.

(** The constructor with the line it writes. *)
Definition constructorTraced (arg : option Config.t)
  : list LogLine * MealViewerClient :=
  let this := constructor arg in
  (log this [LogStr "MealViewerClient initialized"], this).

(** * Properties *)

(** ** Vocabulary of the specification *)

(** [c] does not occur in [s]. *)
Fixpoint lacks (c : ascii) (s : string) : bool :=
  match s with
  | EmptyString => true
  | String a s' => negb (Ascii.eqb a c) && lacks c s'
  end.

Definition is_digit (c : ascii) : bool :=
  ((48 <=? N_of_ascii c) && (N_of_ascii c <=? 57))%N.

Fixpoint all_digits (s : string) : bool :=
  match s with
  | EmptyString => true
  | String a s' => is_digit a && all_digits s'
  end.

(** [s] is made of exactly [n] decimal digits. *)
Definition digits (n : nat) (s : string) : bool :=
  Nat.eqb (String.length s) n && all_digits s.

(** A date segment in the format MM-DD-YYYY: two digits, two digits and
    four digits, separated by dashes. *)
Definition mmddyyyy (segment : string) : bool :=
  match split "-" segment with
  | [m; d; y] => digits 2 m && digits 2 d && digits 4 y
  | _ => false
  end.

(** [t] occurs in [s]: the meaning of [includes]. *)
Definition occurs (t s : string) : Prop :=
  exists pre post, s = pre ++ t ++ post.

(** The ISO string YYYY-MM-DD of the calendar day a date value holds
    (the month of a date value is 0-indexed). *)
Definition isoDate (y m d : Z) : string :=
  padStart 4 "0" (String_of_number (Num y)) ++ "-"
  ++ padStart 2 "0" (String_of_number (Num (m + 1))) ++ "-"
  ++ padStart 2 "0" (String_of_number (Num d)).




Definition school_not_found_message : string :=
  "School not found. Please check the school name and try again.".


Definition invalid_date_error (s : string) : MealViewerError :=
  mkError ("Invalid date format: " ++ s ++ ". Expected YYYY-MM-DD") INVALID_DATE.

(** A cafeteria line of the result against its raw line: the name is
    copied and the items are the raw items, each mapped, one for one and
    in the order of the payload. *)
Definition line_of (raw : RawLine.t) (line : CafeteriaLine.t) : Prop :=
  CafeteriaLine.name line = RawLine.name raw
  /\ Forall2 (fun r item => item = parseItem r)
       (data (RawLine.foodItemList raw)) (CafeteriaLine.items line).

Definition block_of (raw : RawBlock.t) (block : MenuBlock.t) : Prop :=
  Forall2 line_of (data (RawBlock.cafeteriaLineList raw))
    (MenuBlock.cafeteriaLines block).

Definition menu_of (school : School.t) (raw : RawSchedule.t)
           (menu : DailyMenu.t) : Prop :=
  DailyMenu.school menu = school
  /\ Forall2 block_of (RawSchedule.menuBlocks raw) (DailyMenu.meals menu).

(** An optional string of the payload that is there and not empty. *)
Definition nonempty_value (x : option string) (s : string) : Prop :=
  x = Some s /\ s <> "".

(** The number of occurrences of [c] in [s]. *)
Fixpoint count_char (c : ascii) (s : string) : nat :=
  match s with
  | EmptyString => O
  | String a s' => (if Ascii.eqb a c then 1 else 0) + count_char c s'
  end.

(** [parts.join(sep)] for a one-character separator. *)
Fixpoint join (sep : ascii) (parts : list string) : string :=
  match parts with
  | [] => EmptyString
  | [p] => p
  | p :: rest => p ++ String sep (join sep rest)
  end.

(** All the items of a result, in order. *)
Definition all_items (result : GetMenuResponse.t) : list MenuItem.t :=
  flat_map (fun menu =>
    flat_map (fun block =>
      flat_map CafeteriaLine.items (MenuBlock.cafeteriaLines block))
      (DailyMenu.meals menu))
    (GetMenuResponse.menus result).

(** All the food items of a payload, in order. *)
Definition all_raw_items (raw : RawResponse.t) : list RawFoodItem.t :=
  flat_map (fun schedule =>
    flat_map (fun block =>
      flat_map (fun line => data (RawLine.foodItemList line))
        (data (RawBlock.cafeteriaLineList block)))
      (RawSchedule.menuBlocks schedule))
    (RawResponse.menuSchedules raw).

(** The line starts with the tag of the client. *)
Definition tagged (line : LogLine) : Prop :=
  exists args, line = LogStr "[MealViewerClient]" :: args.

(** ** Checks against the test suite *)

Example formatDate_iso :
  formatDate (DStr "2025-01-15") = Return "01-15-2025".
Proof. reflexivity. Qed.

Example formatDate_jan5 :
  formatDate (DObj (ValidDate 2025 0 5)) = Return "01-05-2025".
Proof. reflexivity. Qed.

Example test_default_config :
  axios (constructor None)
  = AxiosConfig.mk "https://api.mealviewer.com/api/v4" (Num 30000)
      "BrandCast/FamilyCast MealViewer Integration".
Proof. reflexivity. Qed.

Example test_custom_config :
  axios (constructor (Some (Config.mk (Some "https://custom-api.example.com")
                              (Some (Num 60000)) (Some "Custom User Agent")
                              (Some true))))
  = AxiosConfig.mk "https://custom-api.example.com" (Num 60000)
      "Custom User Agent".
Proof. reflexivity. Qed.

Example test_date_range :
  buildUrl (mkRequest "ElmwoodElementary" (DStr "2025-01-15")
              (Some (DStr "2025-01-17")))
  = Return "/school/ElmwoodElementary/01-15-2025/01-17-2025/".
Proof. reflexivity. Qed.

Example test_string_date :
  buildUrl (mkRequest "TestSchool" (DStr "2025-12-25") None)
  = Return "/school/TestSchool/12-25-2025/12-25-2025/".
Proof. reflexivity. Qed.

Example test_invalid_date :
  buildUrl (mkRequest "ElmwoodElementary" (DStr "invalid-date") None)
  = Throw (mkError "Invalid date format: invalid-date. Expected YYYY-MM-DD"
                   INVALID_DATE).
Proof. reflexivity. Qed.

Example test_meal_periods :
  map mealPeriodOf ["Breakfast"; "Lunch"; "Dinner"; "Snacktime"; "Brunch"]
  = [Breakfast; Lunch; Dinner; Snack; Lunch].
Proof. reflexivity. Qed.

Example test_404 :
  handleError (ThrownAxios (AxiosError.mk (Some 404) None "Not Found"))
  = Throw (mkError "School not found. Please check the school name and try again."
                   SCHOOL_NOT_FOUND).
Proof. reflexivity. Qed.

Example test_unknown_error :
  handleError (ThrownError "Unknown error")
  = Throw (mkError "Unexpected error: Unknown error" API_ERROR).
Proof. reflexivity. Qed.

(** ** Strings *)

Section SplitLemmas.

Variable sep : ascii.

Lemma split_not_nil (s : string) : split sep s <> [].
Proof.
  induction s as [|c s IH]; simpl; [discriminate|].
  destruct (Ascii.eqb c sep); [discriminate|].
  destruct (split sep s); [contradiction | discriminate].
Qed.

Lemma split_lacks (s : string) : lacks sep s = true -> split sep s = [s].
Proof.
  induction s as [|c s IH]; simpl; intros H; [reflexivity|].
  apply andb_true_iff in H as [Hc Hs].
  apply negb_true_iff in Hc. rewrite Hc, (IH Hs). reflexivity.
Qed.

Lemma split_app (a rest : string) :
  lacks sep a = true ->
  split sep (a ++ String sep rest) = a :: split sep rest.
Proof.
  induction a as [|c a IH]; simpl; intros H.
  - rewrite Ascii.eqb_refl. reflexivity.
  - apply andb_true_iff in H as [Hc Ha].
    apply negb_true_iff in Hc. rewrite Hc, (IH Ha). reflexivity.
Qed.

Lemma split_three (a b c : string) :
  lacks sep a = true -> lacks sep b = true -> lacks sep c = true ->
  split sep (a ++ String sep (b ++ String sep c)) = [a; b; c].
Proof.
  intros Ha Hb Hc.
  rewrite (split_app _ _ Ha), (split_app _ _ Hb), (split_lacks _ Hc).
  reflexivity.
Qed.

End SplitLemmas.

Lemma is_digit_not_dash (c : ascii) : is_digit c = true -> Ascii.eqb c "-" = false.
Proof.
  intros H. apply Ascii.eqb_neq. intros ->. discriminate H.
Qed.

Lemma all_digits_lacks_dash (s : string) :
  all_digits s = true -> lacks "-" s = true.
Proof.
  induction s as [|c s IH]; simpl; intros H; [reflexivity|].
  apply andb_true_iff in H as [Hc Hs].
  rewrite (is_digit_not_dash _ Hc), (IH Hs). reflexivity.
Qed.

Lemma digits_lacks_dash (n : nat) (s : string) :
  digits n s = true -> lacks "-" s = true.
Proof.
  unfold digits. intros H. apply andb_true_iff in H as [_ H].
  now apply all_digits_lacks_dash.
Qed.

(** ** Request builder: dates given as strings *)

(** A string with three dash-separated components is rearranged; the
    components themselves are copied as they are. *)
Lemma formatDate_components (s y m d : string) :
  split "-" s = [y; m; d] ->
  formatDate (DStr s) = Return (m ++ "-" ++ d ++ "-" ++ y).
Proof.
  intros H. unfold formatDate. rewrite H. reflexivity.
Qed.

(** C1, as stated, fails: the month and day of a string date are not
    padded.  ["2025-1-5"] gives the segment ["1-5-2025"], which is not in
    the format MM-DD-YYYY. *)
Lemma formatDate_string_unpadded :
  formatDate (DStr "2025-1-5") = Return "1-5-2025"
  /\ mmddyyyy "1-5-2025" = false.
Proof. split; reflexivity. Qed.

(** Three dash-free components are split apart again. *)
Lemma split_dashed (a b c : string) :
  lacks "-" a = true -> lacks "-" b = true -> lacks "-" c = true ->
  split "-" (a ++ "-" ++ b ++ "-" ++ c) = [a; b; c].
Proof. exact (split_three "-" a b c). Qed.

Lemma mmddyyyy_digit_groups (m d y : string) :
  digits 2 m = true -> digits 2 d = true -> digits 4 y = true ->
  mmddyyyy (m ++ "-" ++ d ++ "-" ++ y) = true.
Proof.
  intros Hm Hd Hy. unfold mmddyyyy.
  rewrite split_dashed by eauto using digits_lacks_dash.
  rewrite Hm, Hd, Hy. reflexivity.
Qed.

(** C1 (amended).  For every string of the form YYYY-MM-DD (four digits, two
    digits, two digits) the date segment is the rearrangement MM-DD-YYYY of
    its three components, and so is in the format MM-DD-YYYY with a
    two-digit month and day. *)
Theorem formatDate_iso_rearranged (y m d : string) :
  digits 4 y = true -> digits 2 m = true -> digits 2 d = true ->
  formatDate (DStr (y ++ "-" ++ m ++ "-" ++ d))
  = Return (m ++ "-" ++ d ++ "-" ++ y)
  /\ mmddyyyy (m ++ "-" ++ d ++ "-" ++ y) = true.
Proof.
  intros Hy Hm Hd. split.
  - apply formatDate_components.
    apply split_dashed; eauto using digits_lacks_dash.
  - now apply mmddyyyy_digit_groups.
Qed.

Lemma formatDate_iso_rearranged_witness :
  formatDate (DStr ("2025" ++ "-" ++ "01" ++ "-" ++ "15"))
  = Return ("01" ++ "-" ++ "15" ++ "-" ++ "2025")
  /\ mmddyyyy ("01" ++ "-" ++ "15" ++ "-" ++ "2025") = true.
Proof.
  apply (formatDate_iso_rearranged "2025" "01" "15"); reflexivity.
Defined.

(** ** Request builder: date values *)

Example isoDate_jan5 : isoDate 2025 0 5 = "2025-01-05".
Proof. reflexivity. Qed.

(** A check that holds on every element of an enumerated interval holds
    on every integer of the interval. *)
Lemma interval_check (P : Z -> bool) (lo len : Z) :
  forallb P (map Z.of_nat (seq (Z.to_nat lo) (Z.to_nat len))) = true ->
  forall z, 0 <= lo <= z -> z < lo + len -> P z = true.
Proof.
  intros H z Hlo Hz.
  rewrite forallb_forall in H. apply H.
  apply in_map_iff. exists (Z.to_nat z). split; [lia|].
  apply in_seq. lia.
Qed.

Lemma year_four_digits (y : Z) :
  1000 <= y <= 9999 -> digits 4 (String_of_number (Num y)) = true.
Proof.
  intros H.
  apply (interval_check (fun z => digits 4 (String_of_number (Num z)))
           1000 9000); [vm_compute; reflexivity | lia | lia].
Qed.

Lemma pad2_two_digits (n : Z) :
  0 <= n <= 99 ->
  digits 2 (padStart 2 "0" (String_of_number (Num n))) = true.
Proof.
  intros H.
  apply (interval_check
           (fun z => digits 2 (padStart 2 "0" (String_of_number (Num z))))
           0 100); [vm_compute; reflexivity | lia | lia].
Qed.

Lemma padStart_full (n : nat) (c : ascii) (s : string) :
  String.length s = n -> padStart n c s = s.
Proof.
  intros H. unfold padStart. rewrite H, Nat.sub_diag. reflexivity.
Qed.

Lemma digits_length (n : nat) (s : string) :
  digits n s = true -> String.length s = n.
Proof.
  unfold digits. intros H. apply andb_true_iff in H as [H _].
  now apply Nat.eqb_eq.
Qed.

(** C8, as stated, fails: the year of a date value is not padded, so a
    date value before the year 1000 and the ISO string of the same day give
    different segments. *)
Lemma formatDate_year_999 :
  formatDate (DObj (ValidDate 999 0 5)) = Return "01-05-999"
  /\ formatDate (DStr (isoDate 999 0 5)) = Return "01-05-0999"
  /\ formatDate (DObj (ValidDate 999 0 5)) <> formatDate (DStr (isoDate 999 0 5)).
Proof. repeat split. discriminate. Qed.

(** C8 (amended).  A date value has no failure path: every one, the
    invalid date included, gives a segment.  For every date value whose
    year has four digits (1000..9999), the segment is month+1, day and
    year, month and day padded to two digits, and it is the segment that
    the ISO string YYYY-MM-DD of the same calendar day gives. *)
Theorem formatDate_object_as_iso :
  (forall dt : JsDate, exists segment, formatDate (DObj dt) = Return segment)
  /\
  (forall y m d : Z,
      1000 <= y <= 9999 -> 0 <= m <= 11 -> 1 <= d <= 31 ->
      formatDate (DObj (ValidDate y m d))
      = Return (padStart 2 "0" (String_of_number (Num (m + 1))) ++ "-"
                ++ padStart 2 "0" (String_of_number (Num d)) ++ "-"
                ++ String_of_number (Num y))
      /\ formatDate (DObj (ValidDate y m d)) = formatDate (DStr (isoDate y m d))
      /\ (forall segment, formatDate (DObj (ValidDate y m d)) = Return segment ->
                          mmddyyyy segment = true)).
Proof.
  split.
  - intros dt. eexists. reflexivity.
  - intros y m d Hy Hm Hd.
    pose proof (year_four_digits y Hy) as Dy.
    assert (Dm : digits 2 (padStart 2 "0" (String_of_number (Num (m + 1)))) = true)
      by (apply pad2_two_digits; lia).
    assert (Dd : digits 2 (padStart 2 "0" (String_of_number (Num d))) = true)
      by (apply pad2_two_digits; lia).
    assert (Hfmt : formatDate (DStr (isoDate y m d))
                   = formatDate (DObj (ValidDate y m d))).
    { unfold isoDate.
      rewrite (padStart_full 4 "0" _ (digits_length _ _ Dy)).
      apply formatDate_components.
      apply split_dashed; eauto using digits_lacks_dash. }
    split; [reflexivity|]. split; [now rewrite Hfmt|].
    intros segment Hseg. simpl in Hseg. injection Hseg as <-.
    now apply mmddyyyy_digit_groups.
Qed.

Lemma formatDate_object_as_iso_witness :
  formatDate (DObj (ValidDate 2025 0 5)) = Return "01-05-2025"
  /\ formatDate (DObj (ValidDate 2025 0 5)) = formatDate (DStr "2025-01-05").
Proof.
  destruct (proj2 formatDate_object_as_iso 2025 0 5) as (H1 & H2 & _);
    [lia | lia | lia |].
  split; [exact H1 | exact H2].
Defined.

(** ** Response mapper: the meal period of a block *)










(** ** Error classifier *)

Lemma is_status_spec (n : Z) (r : option Z) :
  is_status n r = true <-> r = Some n.
Proof.
  destruct r as [s|]; simpl.
  - rewrite Z.eqb_eq. split; [now intros -> | now intros [= ->]].
  - split; discriminate.
Qed.




Lemma occurs_between (pre t post : string) : occurs t (pre ++ t ++ post).
Proof. now exists pre, post. Qed.




(** The one failure that leaves the classifier as a [TypeError]. *)
Lemma handleError_escapes_iff (error : Thrown) :
  handleError error = ThrowTypeError <-> error = ThrownValue None.
Proof.
  split; [|now intros ->].
  destruct error as [e | cause | [cause|]]; simpl; try discriminate;
    [|reflexivity].
  destruct (is_status 404 _); [discriminate|].
  destruct (_ || _); discriminate.
Qed.

(** C2.  The classifier attempts to give every failure one of the four
    kinds, but a failure that is neither an axios error nor an [Error] and
    whose conversion to a string throws (as [Object.create(null)]) is not
    classified: the [TypeError] of the conversion leaves [handleError], and
    [getMenu] with it, in place of a [MealViewerError].  It is the only
    failure that escapes. *)
Theorem handleError_unclassified_escape :
  handleError (ThrownValue None) = ThrowTypeError
  /\ (forall e, handleError (ThrownValue None) <> Throw e)
  /\ (forall newDate,
        getMenu newDate (fun _ => Rejected (ThrownValue None))
          (mkRequest "ElmwoodElementary" (DStr "2025-01-15") None)
        = mkRun ["/school/ElmwoodElementary/01-15-2025/01-15-2025/"]
            ThrowTypeError)
  /\ (forall error, handleError error = ThrowTypeError
                    <-> error = ThrownValue None).
Proof.
  split; [reflexivity|]. split; [discriminate|]. split; [reflexivity|].
  exact handleError_escapes_iff.
Qed.



Example classify_404_before_code :
  handleError (ThrownAxios (AxiosError.mk (Some 404) (Some "ETIMEDOUT") "x"))
  = Throw (mkError school_not_found_message SCHOOL_NOT_FOUND).
Proof. reflexivity. Qed.

Example classify_refused :
  handleError (ThrownAxios (AxiosError.mk None (Some "ECONNREFUSED")
                              "Connection refused"))
  = Throw (mkError "Network error: ECONNREFUSED. Please check your internet connection."
                   NETWORK_ERROR).
Proof. reflexivity. Qed.

Example classify_server_error :
  handleError (ThrownAxios (AxiosError.mk (Some 500) None "Server error"))
  = Throw (mkError "API request failed: Server error" API_ERROR).
Proof. reflexivity. Qed.

(** ** getMenu: the dates of a query *)

Lemma formatDate_not_three (s : string) :
  List.length (split "-" s) <> 3%nat ->
  formatDate (DStr s) = Throw (invalid_date_error s).
Proof.
  unfold formatDate, invalid_date_error. intros H.
  destruct (split "-" s) as [|a [|b [|c [|d l]]]]; try reflexivity.
  now contradiction H.
Qed.

Lemma truthy_string_nonempty (s : string) : s <> "" -> truthy_string s = true.
Proof. destruct s; [contradiction | reflexivity]. Qed.

(** The classifier never gives the kind INVALID_DATE. *)
Lemma handleError_not_invalid_date (error : Thrown) (e : MealViewerError) :
  handleError error = Throw e -> code e <> INVALID_DATE.
Proof.
  destruct error as [a | cause | [cause|]]; simpl;
    try (intros [= <-]; discriminate); try discriminate.
  destruct (is_status 404 _); [intros [= <-]; discriminate|].
  destruct (_ || _); intros [= <-]; discriminate.
Qed.

Section GetMenu.

Variable newDate : string -> JsDate.
Variable axios_get : string -> AxiosResult.

(** C4 (amended).  A [startDate] string, or a non-empty [endDate] string
    that comes with a [startDate] that formats, which does not split
    into exactly three dash-separated components makes [getMenu] fail
    with the INVALID_DATE error of [formatDate], whose message holds
    that string.  Nothing is requested, and the error is not one the
    classifier produces. *)
Theorem getMenu_invalid_date (request : GetMenuRequest) (s : string) :
  List.length (split "-" s) <> 3%nat ->
  startDate request = DStr s
  \/ (endDate request = Some (DStr s) /\ s <> ""
      /\ exists segment, formatDate (startDate request) = Return segment) ->
  getMenu newDate axios_get request = mkRun [] (Throw (invalid_date_error s))
  /\ code (invalid_date_error s) = INVALID_DATE
  /\ occurs s (message (invalid_date_error s))
  /\ forall error, handleError error <> Throw (invalid_date_error s).
Proof.
  intros Hs Hreq.
  pose proof (formatDate_not_three s Hs) as Hf.
  repeat split.
  - unfold getMenu, buildUrl, dateSegments.
    destruct Hreq as [-> | (-> & Hne & segment & ->)].
    + rewrite Hf. reflexivity.
    + cbn [bind truthy_date].
      rewrite (truthy_string_nonempty s Hne), Hf. reflexivity.
  - exact (occurs_between "Invalid date format: " s _).
  - intros error E.
    now apply (handleError_not_invalid_date error _ E).
Qed.

(** C7.  When [endDate] is omitted and the start date formats, the two
    date segments of the URL are the same, and that URL is the one
    requested. *)
Theorem getMenu_endDate_omitted (request : GetMenuRequest) (segment : string) :
  endDate request = None ->
  formatDate (startDate request) = Return segment ->
  dateSegments request = Return (segment, segment)
  /\ buildUrl request
     = Return ("/school/" ++ schoolName request ++ "/" ++ segment ++ "/"
               ++ segment ++ "/")
  /\ requested (getMenu newDate axios_get request)
     = ["/school/" ++ schoolName request ++ "/" ++ segment ++ "/"
        ++ segment ++ "/"].
Proof.
  intros He Hs.
  assert (Hd : dateSegments request = Return (segment, segment)).
  { unfold dateSegments. rewrite Hs, He. reflexivity. }
  assert (Hu : buildUrl request
               = Return (urlOf (schoolName request) (segment, segment))).
  { unfold buildUrl. rewrite Hd. reflexivity. }
  repeat split; [exact Hd | exact Hu |].
  unfold getMenu, tryFetch. rewrite Hu.
  destruct (axios_get _); reflexivity.
Qed.

(** C9.  A query whose [endDate] is the empty string is handled as the
    same query without [endDate]: [formatDate] is not applied to the
    empty string (which it would refuse), and when the start date formats
    the request is sent with both segments equal to the start segment; it
    does not fail with INVALID_DATE. *)
Theorem getMenu_empty_endDate (school : string) (start : DateArg) :
  getMenu newDate axios_get (mkRequest school start (Some (DStr "")))
  = getMenu newDate axios_get (mkRequest school start None)
  /\ dateSegments (mkRequest school start (Some (DStr "")))
     = (s <- formatDate start ;; Return (s, s))
  /\ formatDate (DStr "") = Throw (invalid_date_error "")
  /\ (forall s, formatDate start = Return s ->
        requested (getMenu newDate axios_get
                     (mkRequest school start (Some (DStr ""))))
        = ["/school/" ++ school ++ "/" ++ s ++ "/" ++ s ++ "/"]
        /\ forall e,
             outcome (getMenu newDate axios_get
                        (mkRequest school start (Some (DStr ""))))
             = Throw e -> code e <> INVALID_DATE).
Proof.
  split; [reflexivity|]. split; [reflexivity|]. split; [reflexivity|].
  intros s Hs. unfold getMenu, tryFetch, buildUrl, dateSegments.
  cbn [startDate endDate schoolName]. rewrite Hs. cbn [bind truthy_date truthy_string].
  destruct (axios_get _) as [d|cause|error]; cbn [requested outcome];
    (split; [reflexivity|]); intros e; try discriminate.
  - intros [= <-]. discriminate.
  - destruct (handleError error) as [[]|e'|] eqn:H; simpl; [|discriminate].
    intros [= <-]. exact (handleError_not_invalid_date _ _ H).
Qed.

End GetMenu.

(** C4, as stated, fails: the empty string does not split into three
    components, yet as [endDate] it is not rejected; the request is sent
    and its answer is returned. *)
Lemma getMenu_blank_endDate_sent :
  List.length (split "-" "") <> 3%nat
  /\ getMenu (fun _ => InvalidDate)
       (fun _ => Resolved (RawResponse.mk (School.mk "S" "A" "C" None None None) []))
       (mkRequest "ElmwoodElementary" (DStr "2025-01-15") (Some (DStr "")))
     = mkRun ["/school/ElmwoodElementary/01-15-2025/01-15-2025/"]
         (Return (GetMenuResponse.mk [] (School.mk "S" "A" "C" None None None))).
Proof. split; [discriminate | reflexivity]. Qed.

Lemma getMenu_invalid_date_witness :
  getMenu (fun _ => InvalidDate) (fun _ => Rejected (ThrownError "unused"))
    (mkRequest "ElmwoodElementary" (DStr "invalid-date") None)
  = mkRun [] (Throw (invalid_date_error "invalid-date"))
  /\ getMenu (fun _ => InvalidDate) (fun _ => Rejected (ThrownError "unused"))
       (mkRequest "ElmwoodElementary" (DStr "2025-01-15")
          (Some (DStr "2025/01/17")))
     = mkRun [] (Throw (invalid_date_error "2025/01/17")).
Proof.
  split.
  - refine (proj1 (getMenu_invalid_date _ _ _ "invalid-date" _ _)).
    + vm_compute. discriminate.
    + left. reflexivity.
  - refine (proj1 (getMenu_invalid_date _ _ _ "2025/01/17" _ _)).
    + vm_compute. discriminate.
    + right. split; [reflexivity|]. split; [discriminate|].
      exists "01-15-2025". reflexivity.
Defined.

Lemma getMenu_endDate_omitted_witness :
  dateSegments (mkRequest "TestSchool" (DStr "2025-12-25") None)
  = Return ("12-25-2025", "12-25-2025").
Proof.
  refine (proj1 (getMenu_endDate_omitted
                   (fun _ => InvalidDate)
                   (fun _ => Rejected (ThrownError "unused"))
                   (mkRequest "TestSchool" (DStr "2025-12-25") None)
                   "12-25-2025" _ _)); reflexivity.
Defined.

Lemma getMenu_empty_endDate_witness :
  requested (getMenu (fun _ => InvalidDate)
               (fun _ => Rejected (ThrownError "unused"))
               (mkRequest "ElmwoodElementary" (DStr "2025-01-15")
                  (Some (DStr ""))))
  = ["/school/ElmwoodElementary/01-15-2025/01-15-2025/"].
Proof.
  refine (proj1 (proj2 (proj2 (proj2
    (getMenu_empty_endDate (fun _ => InvalidDate)
       (fun _ => Rejected (ThrownError "unused"))
       "ElmwoodElementary" (DStr "2025-01-15")))) "01-15-2025" _)).
  reflexivity.
Defined.

(** ** Response mapper: shape of the result *)

(** [Forall2] along a [map]: the mapped list has the length and the order
    of its source. *)
Lemma Forall2_map_right {A B : Type} (R : A -> B -> Prop) (f : A -> B)
      (l : list A) :
  (forall x, In x l -> R x (f x)) -> Forall2 R l (map f l).
Proof.
  induction l as [|x l IH]; intros H; simpl; constructor.
  - apply H. now left.
  - apply IH. intros y Hy. apply H. now right.
Qed.

Lemma parseLine_line_of (raw : RawLine.t) : line_of raw (parseLine raw).
Proof.
  split; [reflexivity|]. simpl. now apply Forall2_map_right.
Qed.

Lemma parseBlock_block_of (raw : RawBlock.t) : block_of raw (parseBlock raw).
Proof.
  unfold block_of. simpl.
  apply Forall2_map_right. intros line _. apply parseLine_line_of.
Qed.

Section Mapper.

Variable newDate : string -> JsDate.

(** C5.  The result has one daily menu per day-schedule of the payload
    (none for none), in the order of the payload; in each, the blocks,
    the cafeteria lines and the items stand one for one and in the same
    order as in the payload, nothing sorted and nothing dropped; and
    each daily menu holds the school of the result, which is the
    location of the payload. *)
Theorem parseResponse_shape (raw : RawResponse.t) :
  let result := parseResponse newDate raw in
  List.length (GetMenuResponse.menus result)
  = List.length (RawResponse.menuSchedules raw)
  /\ GetMenuResponse.school result = RawResponse.physicalLocation raw
  /\ Forall2 (menu_of (GetMenuResponse.school result))
       (RawResponse.menuSchedules raw) (GetMenuResponse.menus result).
Proof.
  simpl. split; [apply length_map|]. split.
  - now destruct (RawResponse.physicalLocation raw).
  - apply Forall2_map_right. intros schedule _. split; [reflexivity|].
    simpl. apply Forall2_map_right. intros block _.
    apply parseBlock_block_of.
Qed.

End Mapper.

Example parseResponse_no_schedule :
  GetMenuResponse.menus
    (parseResponse (fun _ => InvalidDate)
       (RawResponse.mk (School.mk "Test School" "123 Main St" "Test City"
                          None None None) []))
  = [].
Proof. reflexivity. Qed.

(** Duplicates and order are kept. *)
Example parseLine_keeps_duplicates :
  map MenuItem.name
    (CafeteriaLine.items
       (parseLine (RawLine.mk "Main Line"
                     (mkData [RawFoodItem.mk "Pizza" None None "Entree" "2 slices";
                              RawFoodItem.mk "Apple" None None "Fruit" "1 each";
                              RawFoodItem.mk "Pizza" None None "Entree" "2 slices"]))))
  = ["Pizza"; "Apple"; "Pizza"].
Proof. reflexivity. Qed.

(** ** Response mapper: items *)

Lemma or_undefined_spec (x : option string) :
  (forall s, or_undefined x = Some s <-> nonempty_value x s)
  /\ (or_undefined x = None <-> x = None \/ x = Some "").
Proof.
  unfold nonempty_value.
  destruct x as [[|c t]|]; simpl; split; try intros s; split;
    try discriminate; auto.
  - intros [[= <-] H]. now contradiction H.
  - intros [= <-]. split; [reflexivity | discriminate].
  - now intros [H _].
  - intros [H | H]; discriminate H.
  - now intros [H _].
Qed.

(** C6.  An item of the result has the name, the type and the serving
    size of the raw item; its [altName] and its [description] are there
    exactly when the raw value is a string that is not empty, with that
    value, and are absent otherwise: when the raw value is absent or
    empty. *)
Theorem parseItem_fields (raw : RawFoodItem.t) :
  let item := parseItem raw in
  MenuItem.name item = RawFoodItem.item_Name raw
  /\ MenuItem.type item = RawFoodItem.item_Type raw
  /\ MenuItem.servingSize item = RawFoodItem.serving_Size raw
  /\ (forall s, MenuItem.altName item = Some s
                <-> nonempty_value (RawFoodItem.item_AltName raw) s)
  /\ (MenuItem.altName item = None
      <-> RawFoodItem.item_AltName raw = None
          \/ RawFoodItem.item_AltName raw = Some "")
  /\ (forall s, MenuItem.description item = Some s
                <-> nonempty_value (RawFoodItem.description raw) s)
  /\ (MenuItem.description item = None
      <-> RawFoodItem.description raw = None
          \/ RawFoodItem.description raw = Some "").
Proof.
  simpl.
  destruct (or_undefined_spec (RawFoodItem.item_AltName raw)) as [A1 A2].
  destruct (or_undefined_spec (RawFoodItem.description raw)) as [D1 D2].
  exact (conj eq_refl (conj eq_refl (conj eq_refl
           (conj A1 (conj A2 (conj D1 D2)))))).
Qed.

Example parseItem_pizza :
  parseItem (RawFoodItem.mk "Pizza" None (Some "Cheese pizza") "Entree" "2 slices")
  = MenuItem.mk "Pizza" None (Some "Cheese pizza") "Entree" "2 slices".
Proof. reflexivity. Qed.

(** ** Construction *)

(** C10.  A falsy configuration value gives the default: an empty
    [baseURL] gives the default base URL, a [timeout] of 0 gives 30000 and
    an empty [userAgent] gives the default user agent, whatever the other
    members are. *)
Theorem constructor_falsy_defaults :
  (forall t u d,
      AxiosConfig.baseURL (axios (constructor (Some (Config.mk (Some "") t u d))))
      = "https://api.mealviewer.com/api/v4")
  /\ (forall b u d,
         AxiosConfig.timeout
           (axios (constructor (Some (Config.mk b (Some (Num 0)) u d))))
         = Num 30000)
  /\ (forall b t d,
         AxiosConfig.userAgent
           (axios (constructor (Some (Config.mk b t (Some "") d))))
         = "BrandCast/FamilyCast MealViewer Integration").
Proof. repeat split. Qed.

(** A truthy value is kept. *)
Lemma constructor_keeps_truthy (b u : string) (t : Z) (d : option bool) :
  b <> "" -> u <> "" -> t <> 0 ->
  axios (constructor (Some (Config.mk (Some b) (Some (Num t)) (Some u) d)))
  = AxiosConfig.mk b (Num t) u.
Proof.
  intros Hb Hu Ht. unfold constructor. simpl.
  rewrite (truthy_string_nonempty b Hb), (truthy_string_nonempty u Hu).
  apply Z.eqb_neq in Ht. now rewrite Ht.
Qed.

(** * Further properties of the client *)

(** ** Splitting and joining *)

Section SplitJoin.

Variable sep : ascii.

Lemma split_length_count (s : string) :
  List.length (split sep s) = S (count_char sep s).
Proof.
  induction s as [|c s IH]; simpl; [reflexivity|].
  destruct (Ascii.eqb c sep); simpl; [now rewrite IH|].
  destruct (split sep s) as [|p ps]; simpl in *; lia.
Qed.

Lemma split_parts_lack (s : string) :
  Forall (fun p => lacks sep p = true) (split sep s).
Proof.
  induction s as [|c s IH]; simpl; [now constructor|].
  destruct (Ascii.eqb c sep) eqn:E; [now constructor|].
  destruct (split sep s) as [|p ps].
  - constructor; [simpl; now rewrite E | constructor].
  - inversion IH; subst. constructor; [simpl; now rewrite E | assumption].
Qed.

Lemma join_split (s : string) : join sep (split sep s) = s.
Proof.
  induction s as [|c s IH]; simpl; [reflexivity|].
  destruct (Ascii.eqb_spec c sep) as [->|Hc].
  - pose proof (split_not_nil sep s) as Hn.
    destruct (split sep s) as [|p ps]; [contradiction|].
    simpl in *. now rewrite IH.
  - pose proof (split_not_nil sep s) as Hn.
    destruct (split sep s) as [|p ps]; [contradiction|].
    destruct ps as [|q qs]; simpl in *; now rewrite <- IH.
Qed.

(** A string that splits into three parts is these parts joined, and no
    part holds the separator. *)
Lemma split_three_inv (s a b c : string) :
  split sep s = [a; b; c] ->
  s = a ++ String sep (b ++ String sep c)
  /\ lacks sep a = true /\ lacks sep b = true /\ lacks sep c = true.
Proof.
  intros H. split.
  - rewrite <- (join_split s), H. reflexivity.
  - pose proof (split_parts_lack s) as F. rewrite H in F.
    inversion F as [|? ? Ha F1]; subst.
    inversion F1 as [|? ? Hb F2]; subst.
    inversion F2 as [|? ? Hc _]; subst. auto.
Qed.

End SplitJoin.

Lemma string_length_app (a b : string) :
  String.length (a ++ b) = (String.length a + String.length b)%nat.
Proof. induction a as [|c a IH]; simpl; [reflexivity | now rewrite IH]. Qed.

Lemma count_char_app (c : ascii) (a b : string) :
  count_char c (a ++ b) = (count_char c a + count_char c b)%nat.
Proof.
  induction a as [|x a IH]; simpl; [reflexivity | rewrite IH; lia].
Qed.

Lemma count_char_lacks (c : ascii) (s : string) :
  lacks c s = true -> count_char c s = 0%nat.
Proof.
  induction s as [|x s IH]; simpl; intros H; [reflexivity|].
  apply andb_true_iff in H as [Hx Hs]. apply negb_true_iff in Hx.
  now rewrite Hx, (IH Hs).
Qed.

(** ** formatDate on strings *)

Lemma formatDate_string_inv (s segment : string) :
  formatDate (DStr s) = Return segment ->
  exists y m d, split "-" s = [y; m; d]
                /\ segment = m ++ "-" ++ d ++ "-" ++ y.
Proof.
  unfold formatDate.
  destruct (split "-" s) as [|y [|m [|d [|x l]]]]; try discriminate.
  intros [= <-]. now exists y, m, d.
Qed.

(** Formatting the segment of a string, and the segment of that, gives
    the string back: the three parts are only rotated. *)
Lemma formatDate_rotation (s segment : string) :
  formatDate (DStr s) = Return segment ->
  exists again, formatDate (DStr segment) = Return again
                /\ formatDate (DStr again) = Return s.
Proof.
  intros H.
  destruct (formatDate_string_inv _ _ H) as (y & m & d & Hs & ->).
  destruct (split_three_inv "-" _ _ _ _ Hs) as (-> & Ly & Lm & Ld).
  exists (d ++ "-" ++ y ++ "-" ++ m). split.
  - apply formatDate_components. now apply split_dashed.
  - apply formatDate_components. now apply split_dashed.
Qed.

(** X1.  A string date is accepted exactly when it holds two dashes;
    any other string is refused with the INVALID_DATE error that quotes
    it. *)
Theorem formatDate_string_two_dashes (s : string) :
  ((exists segment, formatDate (DStr s) = Return segment)
   <-> count_char "-" s = 2%nat)
  /\ (formatDate (DStr s) = Throw (invalid_date_error s)
      <-> count_char "-" s <> 2%nat).
Proof.
  pose proof (split_length_count "-" s) as Hl.
  split; split.
  - intros [segment H].
    destruct (formatDate_string_inv _ _ H) as (y & m & d & Hs & _).
    rewrite Hs in Hl. simpl in Hl. lia.
  - intros Hc. unfold formatDate.
    destruct (split "-" s) as [|y [|m [|d [|x l]]]]; simpl in Hl; try lia.
    eexists. reflexivity.
  - intros H Hc. unfold formatDate in H.
    destruct (split "-" s) as [|y [|m [|d [|x l]]]]; simpl in Hl; try lia.
    discriminate H.
  - intros Hc. apply formatDate_not_three. lia.
Qed.

(** X2.  The segment of a string date has the length of the string and
    holds two dashes: nothing is added and nothing is dropped. *)
Theorem formatDate_string_same_size (s segment : string) :
  formatDate (DStr s) = Return segment ->
  String.length segment = String.length s
  /\ count_char "-" segment = 2%nat.
Proof.
  intros H.
  destruct (formatDate_string_inv _ _ H) as (y & m & d & Hs & ->).
  destruct (split_three_inv "-" _ _ _ _ Hs) as (-> & Ly & Lm & Ld).
  split.
  - change (m ++ "-" ++ d ++ "-" ++ y)
      with (m ++ String "-" (d ++ String "-" y)).
    rewrite !string_length_app. simpl. rewrite !string_length_app. simpl. lia.
  - change (m ++ "-" ++ d ++ "-" ++ y)
      with (m ++ String "-" (d ++ String "-" y)).
    rewrite count_char_app. simpl. rewrite count_char_app. simpl.
    rewrite (count_char_lacks _ _ Ly), (count_char_lacks _ _ Lm),
      (count_char_lacks _ _ Ld). reflexivity.
Qed.

Lemma formatDate_string_same_size_witness :
  String.length "01-15-2025" = String.length "2025-01-15"
  /\ count_char "-" "01-15-2025" = 2%nat.
Proof.
  apply (formatDate_string_same_size "2025-01-15" "01-15-2025"). reflexivity.
Defined.

(** X3.  Two string dates with the same segment are the same string. *)
Theorem formatDate_string_injective (s1 s2 segment : string) :
  formatDate (DStr s1) = Return segment ->
  formatDate (DStr s2) = Return segment ->
  s1 = s2.
Proof.
  intros H1 H2.
  destruct (formatDate_rotation _ _ H1) as (a1 & Ha1 & Hb1).
  destruct (formatDate_rotation _ _ H2) as (a2 & Ha2 & Hb2).
  rewrite Ha1 in Ha2. injection Ha2 as ->.
  rewrite Hb1 in Hb2. now injection Hb2.
Qed.

Lemma formatDate_string_injective_witness : "2025-01-15" = "2025-01-15".
Proof.
  apply (formatDate_string_injective "2025-01-15" "2025-01-15" "01-15-2025");
    reflexivity.
Defined.

(** ** formatDate on date values *)

Lemma String_of_number_inj (a b : Z) :
  String_of_number (Num a) = String_of_number (Num b) -> a = b.
Proof.
  simpl. intros H. apply DecimalZ.to_int_inj.
  pose proof (NilEmpty.isi (Z.to_int a)) as Ha.
  rewrite H, NilEmpty.isi in Ha. now injection Ha.
Qed.

Lemma app_inj_same_length (a a' b b' : string) :
  String.length a = String.length a' ->
  a ++ b = a' ++ b' -> a = a' /\ b = b'.
Proof.
  revert a'. induction a as [|c a IH]; intros [|c' a'] Hl H;
    try discriminate Hl.
  - now split.
  - simpl in *. injection H as -> H. injection Hl as Hl.
    destruct (IH a' Hl H) as [-> ->]. now split.
Qed.

(** Padding to two digits keeps the numbers 0..99 apart. *)
Lemma pad2_inj (a b : Z) :
  0 <= a <= 99 -> 0 <= b <= 99 ->
  padStart 2 "0" (String_of_number (Num a))
  = padStart 2 "0" (String_of_number (Num b)) ->
  a = b.
Proof.
  intros Ha Hb H.
  pose (P := fun z => padStart 2 "0" (String_of_number (Num z))).
  assert (C : forall x, 0 <= x <= 99 ->
                        forallb (fun y => implb (String.eqb (P x) (P y)) (x =? y))
                          (map Z.of_nat (seq 0 100)) = true).
  { intros x Hx.
    apply (interval_check
             (fun x => forallb (fun y => implb (String.eqb (P x) (P y)) (x =? y))
                         (map Z.of_nat (seq 0 100))) 0 100);
      [vm_compute; reflexivity | lia | lia]. }
  pose proof (interval_check _ 0 100 (C a Ha) b) as Hab.
  simpl in Hab. specialize (Hab ltac:(lia) ltac:(lia)).
  fold (P a) (P b) in H. rewrite H, String.eqb_refl in Hab.
  simpl in Hab. now apply Z.eqb_eq.
Qed.

(** X4.  Two date values of different calendar days give different
    segments: the segment of a date value determines its year, month and
    day. *)
Theorem formatDate_object_injective (y m d y' m' d' : Z) :
  0 <= m <= 11 -> 1 <= d <= 31 -> 0 <= m' <= 11 -> 1 <= d' <= 31 ->
  formatDate (DObj (ValidDate y m d)) = formatDate (DObj (ValidDate y' m' d')) ->
  y = y' /\ m = m' /\ d = d'.
Proof.
  intros Hm Hd Hm' Hd' H.
  unfold formatDate in H. cbn [getMonth getDate getFullYear succ] in H.
  injection H as H.
  assert (L : forall z, 0 <= z <= 99 ->
                        String.length (padStart 2 "0" (String_of_number (Num z)))
                        = 2%nat).
  { intros z Hz. apply digits_length, pad2_two_digits, Hz. }
  apply app_inj_same_length in H as [Em H];
    [|exact (eq_trans (L (m + 1) ltac:(lia)) (eq_sym (L (m' + 1) ltac:(lia))))].
  injection H as H.
  apply app_inj_same_length in H as [Ed H];
    [|exact (eq_trans (L d ltac:(lia)) (eq_sym (L d' ltac:(lia))))].
  injection H as H.
  apply (pad2_inj (m + 1) (m' + 1)) in Em; [|lia|lia].
  apply (pad2_inj d d') in Ed; [|lia|lia].
  apply (String_of_number_inj y y') in H. lia.
Qed.

Lemma formatDate_object_injective_witness :
  2025 = 2025 /\ 0 = 0 /\ 5 = 5.
Proof.
  apply (formatDate_object_injective 2025 0 5 2025 0 5);
    try lia; reflexivity.
Defined.

(** ** The URL *)

(** X5.  When the school name and the two segments hold no slash, the
    URL splits on slashes into an empty part, [school], the name, the two
    segments and an empty part: the name and the dates can be read back
    from the URL. *)
Theorem urlOf_splits (school s e : string) :
  lacks "/" school = true -> lacks "/" s = true -> lacks "/" e = true ->
  split "/" (urlOf school (s, e)) = [""; "school"; school; s; e; ""].
Proof.
  intros Hn Hs He. unfold urlOf. simpl fst. simpl snd.
  change ("/school/" ++ school ++ "/" ++ s ++ "/" ++ e ++ "/")
    with ("" ++ String "/" ("school" ++ String "/"
            (school ++ String "/" (s ++ String "/" (e ++ String "/" ""))))).
  rewrite (split_app "/" "") by reflexivity.
  rewrite (split_app "/" "school") by reflexivity.
  rewrite (split_app "/" school) by assumption.
  rewrite (split_app "/" s) by assumption.
  rewrite (split_app "/" e) by assumption.
  reflexivity.
Qed.

Lemma urlOf_splits_witness :
  split "/" (urlOf "ElmwoodElementary" ("01-15-2025", "01-17-2025"))
  = [""; "school"; "ElmwoodElementary"; "01-15-2025"; "01-17-2025"; ""].
Proof.
  apply (urlOf_splits "ElmwoodElementary" "01-15-2025" "01-17-2025");
    reflexivity.
Defined.

(** ** getMenu: requests and outcomes *)

Lemma formatDate_throws_invalid_date (date : DateArg) (e : MealViewerError) :
  formatDate date = Throw e -> code e = INVALID_DATE.
Proof.
  destruct date as [s|d]; [|discriminate].
  unfold formatDate.
  destruct (split "-" s) as [|y [|m [|dd [|x l]]]]; intros [= <-]; reflexivity.
Qed.

Lemma formatDate_no_TypeError (date : DateArg) :
  formatDate date <> ThrowTypeError.
Proof.
  destruct date as [s|d]; [|discriminate].
  unfold formatDate.
  destruct (split "-" s) as [|y [|m [|dd [|x l]]]]; discriminate.
Qed.

(** Building the URL gives the URL or the INVALID_DATE error of one of
    the dates. *)
Lemma buildUrl_cases (request : GetMenuRequest) :
  (exists url, buildUrl request = Return url)
  \/ (exists e, buildUrl request = Throw e /\ code e = INVALID_DATE).
Proof.
  unfold buildUrl, dateSegments.
  pose proof (formatDate_no_TypeError (startDate request)) as N1.
  destruct (formatDate (startDate request)) as [start|e1|] eqn:E1;
    [| right; exists e1; split;
       [reflexivity | exact (formatDate_throws_invalid_date _ _ E1)]
     | contradiction].
  cbn [bind].
  destruct (endDate request) as [d|]; [|left; eexists; reflexivity].
  destruct (truthy_date d); [|left; eexists; reflexivity].
  pose proof (formatDate_no_TypeError d) as N2.
  destruct (formatDate d) as [x|e2|] eqn:E2;
    [left; eexists; reflexivity
    | right; exists e2; split;
      [reflexivity | exact (formatDate_throws_invalid_date _ _ E2)]
    | contradiction].
Qed.

Section GetMenuRuns.

Variable newDate : string -> JsDate.
Variable axios_get : string -> AxiosResult.

(** X6.  One call of [getMenu] sends at most one request, and never a
    second one after a failure.  It sends none exactly when it fails with
    INVALID_DATE.  When it sends one, the URL is the built one; the outcome
    is the mapped payload if the request resolves with a payload of the
    expected shape, and what [handleError] throws for the caught value
    otherwise: the [TypeError] of [parseResponse] if the payload is
    malformed, the rejection if the request fails. *)
Theorem getMenu_one_request (request : GetMenuRequest) :
  let run := getMenu newDate axios_get request in
  (List.length (requested run) <= 1)%nat
  /\ (requested run = []
      <-> exists e, outcome run = Throw e /\ code e = INVALID_DATE)
  /\ (forall url, requested run = [url] ->
        buildUrl request = Return url
        /\ outcome run
           = match axios_get url with
             | Resolved response_data =>
                 Return (parseResponse newDate response_data)
             | ResolvedMalformed typeError_message =>
                 Throw (mkError ("Unexpected error: " ++ typeError_message)
                                API_ERROR)
             | Rejected error => rethrow (handleError error)
             end).
Proof.
  unfold getMenu, tryFetch.
  destruct (buildUrl_cases request) as [[url B] | (e & B & Hc)]; rewrite B.
  - assert (Hno : forall e : MealViewerError,
               match axios_get url with
               | Resolved response_data =>
                   Return (parseResponse newDate response_data)
               | ResolvedMalformed typeError_message =>
                   Throw (mkError ("Unexpected error: " ++ typeError_message)
                                  API_ERROR)
               | Rejected error => rethrow (handleError error)
               end = Throw e -> code e <> INVALID_DATE).
    { intros e. destruct (axios_get url) as [d|m|error];
        [discriminate | intros [= <-]; discriminate|].
      destruct (handleError error) as [[]|e'|] eqn:H; simpl;
        [|discriminate].
      intros [= <-]. exact (handleError_not_invalid_date _ _ H). }
    destruct (axios_get url) as [d|m|error] eqn:G;
      cbn [requested outcome List.length].
    + split; [lia|]. split.
      * split; [discriminate | intros (e & H & _); discriminate H].
      * intros u [= <-]. rewrite G. now split.
    + split; [lia|]. split.
      * split; [discriminate|]. intros (e & H & Hc). now apply Hno in H.
      * intros u [= <-]. rewrite G. now split.
    + split; [lia|]. split.
      * split; [discriminate|]. intros (e & H & Hc). now apply Hno in H.
      * intros u [= <-]. rewrite G. now split.
  - simpl. split; [lia|]. split.
    + split; [|reflexivity]. intros _. now exists e.
    + intros u H. discriminate H.
Qed.

(** X7.  With an [endDate] that is not empty, the URL holds the segment
    of the start date and then the segment of the end date, each
    formatted on its own; the two dates are not compared, so an end before
    the start is requested as it is. *)
Theorem getMenu_with_endDate (request : GetMenuRequest) (d : DateArg)
        (s e : string) :
  endDate request = Some d -> truthy_date d = true ->
  formatDate (startDate request) = Return s ->
  formatDate d = Return e ->
  requested (getMenu newDate axios_get request)
  = ["/school/" ++ schoolName request ++ "/" ++ s ++ "/" ++ e ++ "/"].
Proof.
  intros Hd Ht Hs He.
  unfold getMenu, tryFetch, buildUrl, dateSegments.
  rewrite Hs, Hd. cbn [bind]. rewrite Ht, He. cbn [bind].
  destruct (axios_get _); reflexivity.
Qed.

(** X8.  Dates given as date values are never refused: when neither date
    is a string, one request is sent, also for an invalid date, whose
    segment is [NaN-NaN-NaN]. *)
Theorem getMenu_date_values_sent (request : GetMenuRequest) :
  (forall s, startDate request <> DStr s) ->
  (forall s, endDate request <> Some (DStr s)) ->
  exists url, buildUrl request = Return url
              /\ requested (getMenu newDate axios_get request) = [url].
Proof.
  intros Hs He. unfold getMenu, tryFetch, buildUrl, dateSegments.
  destruct (startDate request) as [s|d]; [now contradiction (Hs s)|].
  destruct (endDate request) as [[s|d']|]; [now contradiction (He s)| |].
  - eexists. split; [reflexivity|]. cbn [formatDate bind truthy_date].
    destruct (axios_get _); reflexivity.
  - eexists. split; [reflexivity|]. cbn [formatDate bind].
    destruct (axios_get _); reflexivity.
Qed.

End GetMenuRuns.

Lemma getMenu_with_endDate_witness :
  requested (getMenu (fun _ => InvalidDate)
               (fun _ => Rejected (ThrownError "unused"))
               (mkRequest "ElmwoodElementary" (DStr "2025-01-17")
                  (Some (DStr "2025-01-15"))))
  = ["/school/ElmwoodElementary/01-17-2025/01-15-2025/"].
Proof.
  apply (getMenu_with_endDate _ _
           (mkRequest "ElmwoodElementary" (DStr "2025-01-17")
              (Some (DStr "2025-01-15")))
           (DStr "2025-01-15") "01-17-2025" "01-15-2025"); reflexivity.
Defined.

Lemma getMenu_date_values_sent_witness :
  exists url,
    buildUrl (mkRequest "TestSchool" (DObj InvalidDate) None) = Return url
    /\ requested (getMenu (fun _ => InvalidDate)
                    (fun _ => Rejected (ThrownError "unused"))
                    (mkRequest "TestSchool" (DObj InvalidDate) None))
       = [url].
Proof.
  apply (getMenu_date_values_sent _ _
           (mkRequest "TestSchool" (DObj InvalidDate) None));
    intros s; discriminate.
Defined.

Example invalid_date_value_url :
  buildUrl (mkRequest "TestSchool" (DObj InvalidDate) None)
  = Return "/school/TestSchool/NaN-NaN-NaN/NaN-NaN-NaN/".
Proof. reflexivity. Qed.

(** ** handleError: what decides the error *)

(** X9.  Of the HTTP status only the value 404 is looked at: two axios
    errors that differ in a status other than 404 (or have no response)
    give the same error; and with status 404 the code and the message of
    the axios error are not looked at. *)
Theorem handleError_status_only_404 :
  (forall (s1 s2 : option Z) (c : option string) (m : string),
      s1 <> Some 404 -> s2 <> Some 404 ->
      handleError (ThrownAxios (AxiosError.mk s1 c m))
      = handleError (ThrownAxios (AxiosError.mk s2 c m)))
  /\ (forall (c c' : option string) (m m' : string),
         handleError (ThrownAxios (AxiosError.mk (Some 404) c m))
         = handleError (ThrownAxios (AxiosError.mk (Some 404) c' m'))).
Proof.
  split; [|reflexivity].
  intros s1 s2 c m H1 H2. simpl.
  destruct (is_status 404 s1) eqn:E1;
    [apply is_status_spec in E1; contradiction|].
  destruct (is_status 404 s2) eqn:E2;
    [apply is_status_spec in E2; contradiction|].
  reflexivity.
Qed.

Lemma handleError_status_only_404_witness :
  handleError (ThrownAxios (AxiosError.mk (Some 500) None "Server error"))
  = handleError (ThrownAxios (AxiosError.mk None None "Server error")).
Proof.
  apply (proj1 handleError_status_only_404); discriminate.
Defined.


(** ** constructor: what reaches axios *)

Lemma string_or_truthy (x : option string) (dflt : string) :
  truthy_string dflt = true -> truthy_string (string_or x dflt) = true.
Proof.
  intros H. destruct x as [s|]; simpl; [|exact H].
  destruct (truthy_string s) eqn:E; [exact E | exact H].
Qed.

Lemma string_or_fixed (s : string) (dflt : string) :
  truthy_string s = true -> string_or (Some s) dflt = s.
Proof. intros H. simpl. now rewrite H. Qed.

Lemma number_or_truthy (x : option JsNumber) (dflt : JsNumber) :
  truthy_number dflt = true -> truthy_number (number_or x dflt) = true.
Proof.
  intros H. destruct x as [n|]; simpl; [|exact H].
  destruct (truthy_number n) eqn:E; [exact E | exact H].
Qed.

(** X11.  Whatever the configuration, the base URL and the user agent
    given to axios are not empty and the timeout is neither 0 nor NaN: a
    client without timeout cannot be configured.  Building a client again
    from the values a client holds gives the same client. *)
Theorem constructor_values_truthy (arg : option Config.t) :
  let this := constructor arg in
  truthy_string (AxiosConfig.baseURL (axios this)) = true
  /\ truthy_number (AxiosConfig.timeout (axios this)) = true
  /\ truthy_string (AxiosConfig.userAgent (axios this)) = true
  /\ constructor
       (Some (Config.mk (Some (AxiosConfig.baseURL (axios this)))
                (Some (AxiosConfig.timeout (axios this)))
                (Some (AxiosConfig.userAgent (axios this)))
                (Some (debug this))))
     = this.
Proof.
  set (config := match arg with Some c => c | None => Config.empty end).
  assert (Hb : truthy_string (string_or (Config.baseURL config) default_baseURL)
               = true) by now apply string_or_truthy.
  assert (Ht : truthy_number (number_or (Config.timeout config) default_timeout)
               = true) by now apply number_or_truthy.
  assert (Hu : truthy_string (string_or (Config.userAgent config) default_userAgent)
               = true) by now apply string_or_truthy.
  unfold constructor. fold config. cbn [axios debug AxiosConfig.baseURL
    AxiosConfig.timeout AxiosConfig.userAgent Config.baseURL Config.timeout
    Config.userAgent Config.debug bool_or_false].
  repeat split; try assumption.
  rewrite !string_or_fixed by assumption.
  cbn [number_or]. rewrite Ht. reflexivity.
Qed.

(** X12.  A value of the configuration that is truthy reaches axios as
    it is: a base URL or user agent that is not empty, and a timeout other
    than 0 and NaN, a negative one included. *)
Theorem constructor_keeps_value (config : Config.t) :
  (forall b, Config.baseURL config = Some b -> b <> "" ->
             AxiosConfig.baseURL (axios (constructor (Some config))) = b)
  /\ (forall t, Config.timeout config = Some (Num t) -> t <> 0 ->
                AxiosConfig.timeout (axios (constructor (Some config))) = Num t)
  /\ (forall u, Config.userAgent config = Some u -> u <> "" ->
                AxiosConfig.userAgent (axios (constructor (Some config))) = u)
  /\ (debug (constructor (Some config)) = true
      <-> Config.debug config = Some true).
Proof.
  unfold constructor. simpl. repeat split.
  - intros b -> Hb. simpl. now rewrite (truthy_string_nonempty b Hb).
  - intros t -> Ht. simpl. apply Z.eqb_neq in Ht. now rewrite Ht.
  - intros u -> Hu. simpl. now rewrite (truthy_string_nonempty u Hu).
  - destruct (Config.debug config) as [[|]|]; simpl; congruence.
  - intros ->. reflexivity.
Qed.

Lemma constructor_keeps_value_witness :
  AxiosConfig.timeout
    (axios (constructor (Some (Config.mk None (Some (Num (-5))) None None))))
  = Num (-5).
Proof.
  apply (proj1 (proj2 (constructor_keeps_value
                         (Config.mk None (Some (Num (-5))) None None))));
    [reflexivity | lia].
Defined.

(** ** parseResponse: the items and the days *)

Lemma flat_map_map {A B C : Type} (f : B -> list C) (g : A -> B) (l : list A) :
  flat_map f (map g l) = flat_map (fun x => f (g x)) l.
Proof.
  induction l as [|x l IH]; simpl; [reflexivity | now rewrite IH].
Qed.

Lemma map_flat_map {A B C : Type} (h : B -> C) (f : A -> list B) (l : list A) :
  map h (flat_map f l) = flat_map (fun x => map h (f x)) l.
Proof.
  induction l as [|x l IH]; simpl; [reflexivity|].
  now rewrite map_app, IH.
Qed.

Lemma parseItem_no_empty_option (raw : RawFoodItem.t) :
  MenuItem.altName (parseItem raw) <> Some ""
  /\ MenuItem.description (parseItem raw) <> Some "".
Proof.
  simpl. split.
  - destruct (RawFoodItem.item_AltName raw) as [[|c s]|]; discriminate.
  - destruct (RawFoodItem.description raw) as [[|c s]|]; discriminate.
Qed.

Section MapperItems.

Variable newDate : string -> JsDate.

(** X13.  Read in order through all days, blocks and lines, the items of
    the result are the food items of the payload, each mapped: none is
    lost, added or moved across a line, a block or a day.  No item of the
    result has an [altName] or a [description] that is the empty
    string. *)
Theorem parseResponse_all_items (raw : RawResponse.t) :
  all_items (parseResponse newDate raw) = map parseItem (all_raw_items raw)
  /\ Forall (fun item => MenuItem.altName item <> Some ""
                         /\ MenuItem.description item <> Some "")
       (all_items (parseResponse newDate raw)).
Proof.
  assert (E : all_items (parseResponse newDate raw)
              = map parseItem (all_raw_items raw)).
  { unfold all_items, all_raw_items. simpl.
    rewrite flat_map_map, map_flat_map.
    apply flat_map_ext. intros schedule. simpl.
    rewrite flat_map_map, map_flat_map.
    apply flat_map_ext. intros block. simpl.
    rewrite flat_map_map, map_flat_map.
    apply flat_map_ext. intros line. reflexivity. }
  split; [exact E|].
  rewrite E. apply Forall_forall. intros item Hin.
  apply in_map_iff in Hin as (r & <- & _).
  apply parseItem_no_empty_option.
Qed.

(** X14.  The daily menu at a position comes from the day-schedule at
    that position: its date is the parsed [dateFull] of that schedule, and
    the meal periods of its blocks are those of the schedule's block
    names, in order; blocks of the same period are not merged. *)
Theorem parseResponse_day (raw : RawResponse.t) (i : nat)
        (schedule : RawSchedule.t) :
  nth_error (RawResponse.menuSchedules raw) i = Some schedule ->
  exists menu,
    nth_error (GetMenuResponse.menus (parseResponse newDate raw)) i = Some menu
    /\ DailyMenu.date menu = newDate (RawSchedule.dateFull schedule)
    /\ map MenuBlock.mealPeriod (DailyMenu.meals menu)
       = map (fun block => mealPeriodOf (RawBlock.blockName block))
           (RawSchedule.menuBlocks schedule).
Proof.
  intros H. eexists. split.
  - simpl. rewrite nth_error_map, H. reflexivity.
  - split; [reflexivity|]. simpl. now rewrite map_map.
Qed.

End MapperItems.

Lemma parseResponse_day_witness :
  exists menu,
    nth_error
      (GetMenuResponse.menus
         (parseResponse (fun _ => ValidDate 2025 0 15)
            (RawResponse.mk (School.mk "S" "A" "C" None None None)
               [RawSchedule.mk "2025-01-15T00:00:00"
                  [RawBlock.mk "Lunch" (mkData []);
                   RawBlock.mk "Lunch" (mkData [])]]))) 0
    = Some menu
    /\ DailyMenu.date menu = ValidDate 2025 0 15
    /\ map MenuBlock.mealPeriod (DailyMenu.meals menu) = [Lunch; Lunch].
Proof.
  apply (parseResponse_day (fun _ => ValidDate 2025 0 15)
           (RawResponse.mk (School.mk "S" "A" "C" None None None)
              [RawSchedule.mk "2025-01-15T00:00:00"
                 [RawBlock.mk "Lunch" (mkData []);
                  RawBlock.mk "Lunch" (mkData [])]])
           0
           (RawSchedule.mk "2025-01-15T00:00:00"
              [RawBlock.mk "Lunch" (mkData []);
               RawBlock.mk "Lunch" (mkData [])])).
  reflexivity.
Defined.

(** ** The console *)

Lemma log_lines (this : MealViewerClient) (args : list LogArg) :
  Forall tagged (log this args)
  /\ List.length (log this args) = (if debug this then 1 else 0)%nat.
Proof.
  unfold log. destruct (debug this); simpl; split; auto.
  constructor; [now exists args | constructor].
Qed.

Lemma handleErrorTraced_lines (this : MealViewerClient) (error : Thrown) :
  snd (handleErrorTraced this error) = handleError error
  /\ Forall tagged (fst (handleErrorTraced this error))
  /\ List.length (fst (handleErrorTraced this error))
     = (if debug this then 1 else 0)%nat.
Proof.
  destruct error as [e | cause | [cause|]]; simpl.
  - destruct (is_status 404 (AxiosError.response e)); simpl;
      [split; [reflexivity | apply log_lines]|].
    destruct (is_code "ECONNREFUSED" (AxiosError.code e)
              || is_code "ETIMEDOUT" (AxiosError.code e)); simpl;
      (split; [reflexivity | apply log_lines]).
  - split; [reflexivity | apply log_lines].
  - split; [reflexivity | apply log_lines].
  - split; [reflexivity | apply log_lines].
Qed.

Section Console.

Variable newDate : string -> JsDate.
Variable axios_get : string -> AxiosResult.

(** X15.  The debug flag changes nothing but the console: the requests
    and the outcome of [getMenu] are the same with and without it, and
    without it nothing is written. *)
Theorem getMenuTraced_same_run (this : MealViewerClient)
        (request : GetMenuRequest) :
  snd (getMenuTraced newDate axios_get this request)
  = getMenu newDate axios_get request
  /\ (debug this = false ->
      fst (getMenuTraced newDate axios_get this request) = []).
Proof.
  unfold getMenuTraced, getMenu, tryFetch.
  destruct (buildUrl request) as [url|e|]; [|now split|now split].
  destruct (axios_get url) as [response_data|cause|error].
  - split; [reflexivity|]. intros H. unfold log. simpl. now rewrite H.
  - pose proof (handleErrorTraced_lines this (ThrownError cause))
      as (Hs & _ & Hl).
    destruct (handleErrorTraced this (ThrownError cause)) as [lines e].
    cbn [fst snd] in *.
    split; [now rewrite Hs|]. intros H. rewrite H in Hl.
    unfold log. rewrite H. simpl. now destruct lines.
  - pose proof (handleErrorTraced_lines this error) as (Hs & _ & Hl).
    destruct (handleErrorTraced this error) as [lines e]. cbn [fst snd] in *.
    split; [now rewrite Hs|]. intros H. rewrite H in Hl.
    unfold log. rewrite H. simpl. now destruct lines.
Qed.

(** X16.  With the debug flag set, [getMenu] writes nothing when the
    dates are refused.  For a request it sends, the first line names the
    URL, and two lines are written in all: the success line if the request
    resolves with a payload of the expected shape, the line of
    [handleError] if the request fails.  If the request resolves with a
    payload on which [parseResponse] throws, three lines are written: the
    success line is followed by the [Unknown error:] line.  Every line
    starts with the tag of the client. *)
Theorem getMenuTraced_lines (this : MealViewerClient)
        (request : GetMenuRequest) :
  let lines := fst (getMenuTraced newDate axios_get this request) in
  let run := snd (getMenuTraced newDate axios_get this request) in
  Forall tagged lines
  /\ (requested run = [] -> lines = [])
  /\ (forall url, requested run = [url] ->
        List.length lines
        = (if debug this
           then match axios_get url with
                | ResolvedMalformed _ => 3
                | _ => 2
                end
           else 0)%nat)
  /\ (forall url, debug this = true -> requested run = [url] ->
        nth_error lines 0
        = Some [LogStr "[MealViewerClient]";
                LogStr ("Fetching menu: GET " ++ url)]
        /\ forall cause, axios_get url = ResolvedMalformed cause ->
             lines
             = [[LogStr "[MealViewerClient]";
                 LogStr ("Fetching menu: GET " ++ url)];
                [LogStr "[MealViewerClient]";
                 LogStr "Menu fetched successfully"];
                [LogStr "[MealViewerClient]"; LogStr "Unknown error:";
                 LogValue (ThrownError cause)]]).
Proof.
  unfold getMenuTraced.
  destruct (buildUrl request) as [url|e|].
  2,3: cbn [fst snd requested];
    (split; [constructor|]); (split; [reflexivity|]);
    (split; [intros u H; discriminate H | intros u _ H; discriminate H]).
  destruct (axios_get url) as [response_data|cause|error] eqn:G.
  - cbn [fst snd requested]. split; [|split; [|split]].
    + apply Forall_app. split; apply log_lines.
    + intros H. discriminate H.
    + intros u [= <-]. rewrite G, List.length_app.
      rewrite (proj2 (log_lines this _)), (proj2 (log_lines this _)).
      now destruct (debug this).
    + intros u H [= <-]. split.
      * unfold log. rewrite H. reflexivity.
      * intros c Hc. rewrite G in Hc. discriminate Hc.
  - cbn [handleErrorTraced fst snd requested]. split; [|split; [|split]].
    + apply Forall_app. split; [apply log_lines|].
      apply Forall_app. split; apply log_lines.
    + intros H. discriminate H.
    + intros u [= <-]. rewrite G, !List.length_app.
      rewrite !(proj2 (log_lines this _)).
      now destruct (debug this).
    + intros u H [= <-]. split.
      * unfold log. rewrite H. reflexivity.
      * intros c Hc. rewrite G in Hc. injection Hc as <-.
        unfold log. rewrite H. reflexivity.
  - pose proof (handleErrorTraced_lines this error) as (_ & Ht & Hl).
    destruct (handleErrorTraced this error) as [elines e].
    cbn [fst snd requested] in *. split; [|split; [|split]].
    + apply Forall_app. split; [apply log_lines | exact Ht].
    + intros H. discriminate H.
    + intros u [= <-]. rewrite G, List.length_app, (proj2 (log_lines this _)), Hl.
      now destruct (debug this).
    + intros u H [= <-]. split.
      * unfold log. rewrite H. reflexivity.
      * intros c Hc. rewrite G in Hc. discriminate Hc.
Qed.

End Console.

Lemma getMenuTraced_same_run_witness :
  fst (getMenuTraced (fun _ => InvalidDate)
         (fun _ => Rejected (ThrownAxios (AxiosError.mk (Some 404) None "Not Found")))
         (constructor None)
         (mkRequest "InvalidSchool" (DStr "2025-01-15") None))
  = [].
Proof.
  apply (proj2 (getMenuTraced_same_run _ _ (constructor None)
                  (mkRequest "InvalidSchool" (DStr "2025-01-15") None))).
  reflexivity.
Defined.

Lemma getMenuTraced_lines_witness :
  List.length
    (fst (getMenuTraced (fun _ => InvalidDate)
            (fun _ => ResolvedMalformed "data.menuSchedules is undefined")
            (constructor (Some (Config.mk None None None (Some true))))
            (mkRequest "TestSchool" (DStr "2025-01-15") None)))
  = 3%nat.
Proof.
  refine (proj1 (proj2 (proj2 (getMenuTraced_lines (fun _ => InvalidDate)
    (fun _ => ResolvedMalformed "data.menuSchedules is undefined")
    (constructor (Some (Config.mk None None None (Some true))))
    (mkRequest "TestSchool" (DStr "2025-01-15") None)))) _ _).
  reflexivity.
Defined.

Example malformed_payload_is_api_error :
  getMenu (fun _ => InvalidDate)
    (fun _ => ResolvedMalformed "data.menuSchedules is undefined")
    (mkRequest "TestSchool" (DStr "2025-01-15") None)
  = mkRun ["/school/TestSchool/01-15-2025/01-15-2025/"]
      (Throw (mkError "Unexpected error: data.menuSchedules is undefined"
                      API_ERROR)).
Proof. reflexivity. Qed.

Example console_of_a_404 :
  fst (getMenuTraced (fun _ => InvalidDate)
         (fun _ => Rejected (ThrownAxios (AxiosError.mk (Some 404) None "Not Found")))
         (constructor (Some (Config.mk None None None (Some true))))
         (mkRequest "InvalidSchool" (DStr "2025-01-15") None))
  = [[LogStr "[MealViewerClient]";
      LogStr "Fetching menu: GET /school/InvalidSchool/01-15-2025/01-15-2025/"];
     [LogStr "[MealViewerClient]"; LogStr "School not found (404)"]].
Proof. reflexivity. Qed.

Example console_of_constructor :
  fst (constructorTraced (Some (Config.mk None None None (Some true))))
  = [[LogStr "[MealViewerClient]"; LogStr "MealViewerClient initialized"]]
  /\ fst (constructorTraced None) = [].
Proof. split; reflexivity. Qed.
